(** * Moving ether and greetings between L1 and L2: a model of the scripts

    The repository holds five one-shot TypeScript scripts
    (deposit-via-lib, deposit-via-inbox, withdraw-via-lib,
    withdraw-via-arbsys and the cross-chain greeter) and the Solidity
    contract [DataFeedConsumer].

    Every script is a straight line of awaited calls to the bridging SDK,
    to a JSON-RPC provider or to a contract, interleaved with console
    output.  The scripts are embedded as terms of a small free monad
    [prog]: a call to the outside world is a node [Await] whose answer is
    chosen by a [world], console output is a node [Console], [throw] and
    [process.exit] are leaves.  [run] interprets a program against a world
    and yields the way the program ended together with the trace of
    everything it did. *)

From Stdlib Require Import ZArith List String Ascii Bool Lia DecimalString.
From Stdlib.Strings Require Import Byte.
Import ListNotations.

Open Scope Z_scope.
Open Scope string_scope.

Set Implicit Arguments.

(** ** Values exchanged with the outside world *)

(** ethers' [BigNumber] is an arbitrary-precision integer. *)
Definition BigNumber := Z.

Definition address := string.
Definition hash := string.

(** JavaScript errors, identified by their message. *)
Definition error := string.

(** The only field of a receipt that the scripts read. *)
Record TransactionReceipt := { transactionHash : hash }.

(** A submitted transaction, on which [wait()] can be awaited. *)
Record ContractTransaction := { txHash : hash }.

(** A deployed contract instance. *)
Record Contract := { contractAddress : address }.

(** The data of a withdrawal event, kept as the text that [console.log]
    renders for it. *)
Definition L2ToL1EventResult := string.

(** A settled promise: fulfilled with a value or rejected with an error. *)
Inductive result (A : Type) : Type :=
| Ok (a : A)
| Err (e : error).
Arguments Ok {A} a.
Arguments Err {A} e.

(** ** The calls the scripts await *)

Inductive call : Type :=
(* arb-ts Bridge *)
| BridgeInit
| GetL2EthBalance
| DepositETH (amount : BigNumber)
| WithdrawETH (amount : BigNumber)
| GetInboxSeqNumFromContractTransaction (rec : TransactionReceipt)
| CalculateL2TransactionHash (seqNum : option BigNumber)
| CalculateL2RetryableTransactionHash (seqNum : option BigNumber)
| GetWithdrawalsInL2Transaction (rec : TransactionReceipt)
| BridgeHelper_getWithdrawalsInL2Transaction (rec : TransactionReceipt)
| GetTxnSubmissionPrice (dataSize : Z)
(* providers *)
| GetBalance (who : address)
| GetGasPrice
| WaitForTransaction (h : hash) (confirmations : option Z) (timeout : option Z)
(* contracts *)
| InboxDepositEth (inbox : address) (maxSubmissionCost : Z) (value : BigNumber)
| ArbSysWithdrawEth (arbSys : address) (dest : address) (value : BigNumber)
| TxWait (tx : ContractTransaction)
| GetContractFactory (name : string)
| Deploy (name : string) (args : list string)
| Deployed (c : Contract)
| UpdateL2Target (c : Contract) (l2Target : address)
| UpdateL1Target (c : Contract) (l1Target : address)
| Greet (c : Contract)
| SetGreetingInL2 (c : Contract) (greeting : string)
    (maxSubmissionCost : BigNumber) (maxGas : Z) (gasPriceBid : BigNumber)
    (value : BigNumber).

(** What each call resolves to.  The sequence-number lookup has the SDK's
    type [BigNumber[] | undefined]: [None] is [undefined]. *)
Definition resp (c : call) : Type :=
  match c with
  | BridgeInit => unit
  | GetL2EthBalance => BigNumber
  | DepositETH _ => ContractTransaction
  | WithdrawETH _ => ContractTransaction
  | GetInboxSeqNumFromContractTransaction _ => option (list BigNumber)
  | CalculateL2TransactionHash _ => hash
  | CalculateL2RetryableTransactionHash _ => hash
  | GetWithdrawalsInL2Transaction _ => list L2ToL1EventResult
  | BridgeHelper_getWithdrawalsInL2Transaction _ => list L2ToL1EventResult
  | GetTxnSubmissionPrice _ => (BigNumber * BigNumber)%type
  | GetBalance _ => BigNumber
  | GetGasPrice => BigNumber
  | WaitForTransaction _ _ _ => TransactionReceipt
  | InboxDepositEth _ _ _ => ContractTransaction
  | ArbSysWithdrawEth _ _ _ => ContractTransaction
  | TxWait _ => TransactionReceipt
  | GetContractFactory _ => unit
  | Deploy _ _ => Contract
  | Deployed _ => unit
  | UpdateL2Target _ _ => ContractTransaction
  | UpdateL1Target _ _ => ContractTransaction
  | Greet _ => string
  | SetGreetingInL2 _ _ _ _ _ _ => ContractTransaction
  end.

(** ** Programs *)

Inductive console_method := ConsoleLog | ConsoleWarn | ConsoleError.

Inductive stream := Stdout | Stderr.

(** Node writes [console.log] to standard output and [console.warn] and
    [console.error] to standard error. *)
Definition stream_of (m : console_method) : stream :=
  match m with
  | ConsoleLog => Stdout
  | ConsoleWarn | ConsoleError => Stderr
  end.

(** The body of an [async] function.  The continuation of [Await] sees the
    settled promise; [Clock] reads the wall clock ([new Date()]), which
    cannot fail. *)
Inductive prog (A : Type) : Type :=
| Return (a : A)
| Throw (e : error)
| Exit (code : Z)
| Console (m : console_method) (text : string) (k : prog A)
| Clock (k : Z -> prog A)
| Await (c : call) (k : result (resp c) -> prog A).
Arguments Return {A} a.
Arguments Throw {A} e.
Arguments Exit {A} code.
Arguments Console {A} m text k.
Arguments Clock {A} k.
Arguments Await {A} c k.

(** [await e]: a rejected promise is rethrown at the [await]. *)
Definition await {A} (c : call) (k : resp c -> prog A) : prog A :=
  Await c (fun r => match r with
                    | Ok v => k v
                    | Err e => Throw e
                    end).

(** [p.then(f)] *)
Fixpoint bind {A B} (p : prog A) (f : A -> prog B) : prog B :=
  match p with
  | Return a => f a
  | Throw e => Throw e
  | Exit c => Exit c
  | Console m s k => Console m s (bind k f)
  | Clock k => Clock (fun t => bind (k t) f)
  | Await c k => Await c (fun r => bind (k r) f)
  end.

(** [p.catch(h)] *)
Fixpoint catch {A} (p : prog A) (h : error -> prog A) : prog A :=
  match p with
  | Return a => Return a
  | Throw e => h e
  | Exit c => Exit c
  | Console m s k => Console m s (catch k h)
  | Clock k => Clock (fun t => catch (k t) h)
  | Await c k => Await c (fun r => catch (k r) h)
  end.

(** ** Worlds, traces and the interpreter *)

(** A world answers the [n]-th call of a run and tells the time (in
    milliseconds since the epoch) at that point. *)
Record world := {
  respond : nat -> forall c : call, result (resp c);
  clock : nat -> Z
}.

Inductive event : Type :=
| EvConsole (m : console_method) (text : string)
| EvCall (c : call) (r : result (resp c)).

Definition trace := list event.

Inductive outcome (A : Type) : Type :=
| Resolved (a : A)
| Rejected (e : error)
| Exited (code : Z).
Arguments Resolved {A} a.
Arguments Rejected {A} e.
Arguments Exited {A} code.

Fixpoint run {A} (w : world) (n : nat) (p : prog A) : outcome A * trace :=
  match p with
  | Return a => (Resolved a, [])
  | Throw e => (Rejected e, [])
  | Exit c => (Exited c, [])
  | Console m s k =>
      let '(o, t) := run w n k in (o, EvConsole m s :: t)
  | Clock k => run w n (k (clock w n))
  | Await c k =>
      let a := respond w n c in
      let '(o, t) := run w (S n) (k a) in (o, EvCall c a :: t)
  end.

(** Projections of a trace. *)
Definition rejection (ev : event) : option error :=
  match ev with
  | EvCall _ (Err e) => Some e
  | _ => None
  end.

Fixpoint calls (t : trace) : list call :=
  match t with
  | [] => []
  | EvCall c _ :: t' => c :: calls t'
  | EvConsole _ _ :: t' => calls t'
  end.

(** ** Helpers of the scripts *)

(** The operations of [BigNumber] that the scripts use: exact integer
    comparison, product and sum. *)
Module BN.
Definition lt (a b : BigNumber) : bool := Z.ltb a b.
Definition mul (a b : BigNumber) : BigNumber := Z.mul a b.
Definition add (a b : BigNumber) : BigNumber := Z.add a b.
End BN.

(** [BigNumber.toString()] and the rendering of an integral number in a
    template string. *)
Definition toString (z : Z) : string := NilZero.string_of_int (Z.to_int z).

(** [array[0]], which is [undefined] on an empty array. *)
Definition first {A} (l : list A) : option A :=
  match l with
  | [] => None
  | x :: _ => Some x
  end.

Notation "'let!' x ':=' c 'in' k" := (await c (fun x => k))
  (at level 10, x name, c at level 100, k at level 200).
Notation "'log!' s ';;' k" := (Console ConsoleLog s k)
  (at level 10, s at level 100, k at level 200).
Notation "'warn!' s ';;' k" := (Console ConsoleWarn s k)
  (at level 10, s at level 100, k at level 200).

(** The script's last statement:
    [main().then(() => process.exit(0)).catch(error => { console.error(error); process.exit(1); })] *)
Definition entry (main : prog unit) : prog unit :=
  catch (bind main (fun _ => Exit 0))
        (fun error => Console ConsoleError error (Exit 1)).

(** What the scripts read from the environment and from the wallet. *)
Record config := {
  INBOX_ADDR : address;
  l2WalletAddress : address;
  (** [Date.prototype.toTimeString], which depends on the time zone *)
  toTimeString : Z -> string
}.

(** ** deposit-via-lib.ts *)
Module deposit_via_lib.

(** [parseEther("0.0001")], in wei *)
Definition ethToL2DepositAmount : BigNumber := 100000000000000.

Definition main : prog unit :=
  log! "Deposit Eth via arb-ts" ;;
  let! bridge := BridgeInit in
  let! l2WalletInitialEthBalance := GetL2EthBalance in
  let! depositTx := DepositETH ethToL2DepositAmount in
  let! rec := TxWait depositTx in
  warn! "deposit L1 receipt is: " ++ transactionHash rec ;;
  let! seqNumArr := GetInboxSeqNumFromContractTransaction rec in
  match seqNumArr with
  | None => Throw "no seq num"
  | Some seqNumArr =>
      log! "inbox sequence number is found!" ;;
      let seqNum := first seqNumArr in
      let! l2TxHash := CalculateL2TransactionHash seqNum in
      log! "l2TxHash is: " ++ l2TxHash ;;
      log! "waiting for l2 transaction:" ;;
      let! l2TxnRec :=
        WaitForTransaction l2TxHash None (Some (1000 * 60 * 12)) in
      log! "L2 transaction found! " ++ transactionHash l2TxnRec ;;
      let! l2WalletUpdatedEthBalance := GetL2EthBalance in
      log! "your L2 balance is updated from "
           ++ toString l2WalletInitialEthBalance ++ " to "
           ++ toString l2WalletUpdatedEthBalance ;;
      Return tt
  end.

End deposit_via_lib.

(** ** deposit-via-inbox.ts *)
Module deposit_via_inbox.

(** [parseEther("0.0001")], in wei *)
Definition ethToL2DepositAmount : BigNumber := 100000000000000.

Definition main (cfg : config) : prog unit :=
  log! "('Deposit Eth via the Inbox')" ;;
  let! bridge := BridgeInit in
  let! l2WalletInitialEthBalance := GetL2EthBalance in
  let inbox := INBOX_ADDR cfg in
  let! depositTx :=
    InboxDepositEth inbox 10000000000000 ethToL2DepositAmount in
  let! rec := TxWait depositTx in
  warn! "Deposit L1 receipt is: " ++ transactionHash rec ;;
  let! seqNumArr := GetInboxSeqNumFromContractTransaction rec in
  match seqNumArr with
  | None => Throw "No seq num"
  | Some seqNumArr =>
      log! "Inbox sequence number is found!" ;;
      let seqNum := first seqNumArr in
      let! l2TxHash := CalculateL2TransactionHash seqNum in
      warn! "L2 Tx Hash is " ++ l2TxHash ;;
      log! "Waiting for L2 tx..." ;;
      let! l2TxRec :=
        WaitForTransaction l2TxHash None (Some (1000 * 60 * 12)) in
      log! "L2 tx found: " ++ transactionHash l2TxRec ;;
      let! l2WalletUpdatedEthBalance := GetL2EthBalance in
      log! "Your L2 balance is updated from "
           ++ toString l2WalletInitialEthBalance ++ " to "
           ++ toString l2WalletUpdatedEthBalance ;;
      Return tt
  end.

End deposit_via_inbox.

(** [console.log(label, x)] of a value that may be [undefined]. *)
Definition inspect (x : option L2ToL1EventResult) : string :=
  match x with
  | Some text => text
  | None => "undefined"
  end.

(** ** withdraw-via-lib.ts *)
Module withdraw_via_lib.

(** [parseEther("0.000001")], in wei *)
Definition ethFromL2WithdrawAmount : BigNumber := 1000000000000.

Definition main (cfg : config) : prog unit :=
  log! "Withdraw Eth via arb-ts" ;;
  let! bridge := BridgeInit in
  let! l2WalletInitialEthBalance := GetL2EthBalance in
  if BN.lt l2WalletInitialEthBalance ethFromL2WithdrawAmount then
    log! "Oops - not enough ether; fund your account L2 wallet currently "
         ++ l2WalletAddress cfg ++ " with at least 0.000001 ether" ;;
    Exit 1
  else
    log! "Wallet properly funded: initiating withdrawal now" ;;
    let! withdrawTx := WithdrawETH ethFromL2WithdrawAmount in
    let! withdrawRec := TxWait withdrawTx in
    let! withdrawals := GetWithdrawalsInL2Transaction withdrawRec in
    let withdrawEventData := first withdrawals in
    log! "Ether withdrawal initiated! 🥳 " ++ transactionHash withdrawRec ;;
    log! "Withdrawal data: " ++ inspect withdrawEventData ;;
    log! "To to claim funds (after dispute period), see outbox-execute repo ✌️" ;;
    Return tt.

End withdraw_via_lib.

(** ** withdraw-via-arbsys.ts *)
Module withdraw_via_arbsys.

(** [parseEther("0.001")], in wei *)
Definition ethFromL2WithdrawAmount : BigNumber := 1000000000000000.

Definition main (cfg : config) : prog unit :=
  log! "Withdraw Eth via ArbSys" ;;
  let! l2WalletInitialEthBalance := GetBalance (l2WalletAddress cfg) in
  if BN.lt l2WalletInitialEthBalance ethFromL2WithdrawAmount then
    log! "Oops - not enough ether; fund your account L2 wallet currently "
         ++ l2WalletAddress cfg ++ " with at least 0.001 ether" ;;
    Exit 1
  else
    log! "Wallet properly funded: initiating withdrawal now" ;;
    let arbSys := "0x0000000000000000000000000000000000000064" in
    let! withdrawTx :=
      ArbSysWithdrawEth arbSys (l2WalletAddress cfg)
                        ethFromL2WithdrawAmount in
    let! withdrawRec := TxWait withdrawTx in
    let! withdrawals :=
      BridgeHelper_getWithdrawalsInL2Transaction withdrawRec in
    let withdrawEventData := first withdrawals in
    log! "Ether withdrawal initiated! 🥳 " ++ transactionHash withdrawRec ;;
    log! "Withdrawal data: " ++ inspect withdrawEventData ;;
    log! "To claim funds (after dispute period), see outbox-execute repo ✌️" ;;
    let! l2WalletUpdatedEthBalance := GetBalance (l2WalletAddress cfg) in
    log! "Your L2 balance is updated from "
         ++ toString l2WalletInitialEthBalance ++ " to "
         ++ toString l2WalletUpdatedEthBalance ;;
    Return tt.

End withdraw_via_arbsys.

(** ** The greeter's calldata size *)

(** A byte from an integer, by its residue modulo 256. *)
Definition byte_of_Z (z : Z) : byte :=
  match Byte.of_N (Z.to_N (z mod 256)) with
  | Some b => b
  | None => x00
  end.

(** The [k] low-order bytes of [z], most significant first. *)
Fixpoint be_bytes (k : nat) (z : Z) : list byte :=
  match k with
  | O => []
  | S k' => byte_of_Z (z / 256 ^ Z.of_nat k') :: be_bytes k' z
  end.

(** A [uint256] word of the ABI. *)
Definition word32 (z : Z) : list byte := be_bytes 32 z.

(** Zero bytes that fill [len] up to a multiple of 32. *)
Definition padding (len : nat) : list byte :=
  repeat x00 (Z.to_nat ((32 - Z.of_nat len mod 32) mod 32)).

(** The ABI encoding of the tuple [(string)]: the offset of the tail, then
    the length of the string and its bytes padded to whole words. *)
Definition abi_encode_string (s : string) : list byte :=
  let data := list_byte_of_string s in
  word32 32 ++ word32 (Z.of_nat (List.length data)) ++ data
    ++ padding (List.length data).

Definition hex_digit (n : N) : ascii :=
  match String.get (N.to_nat n) "0123456789abcdef" with
  | Some a => a
  | None => "0"%char
  end.

Fixpoint hex_body (bs : list byte) : string :=
  match bs with
  | [] => EmptyString
  | b :: bs' =>
      String (hex_digit (Byte.to_N b / 16))
        (String (hex_digit (Byte.to_N b mod 16)) (hex_body bs'))
  end.

(** ethers' [hexlify] of a byte array. *)
Definition hexlify (bs : list byte) : string := "0x" ++ hex_body bs.

(** [ethers.utils.defaultAbiCoder.encode(["string"], [s])] *)
Definition defaultAbiCoder_encode_string (s : string) : string :=
  hexlify (abi_encode_string s).

Definition is_hex_char (a : ascii) : bool :=
  let n := nat_of_ascii a in
  ((48 <=? n) && (n <=? 57) || (65 <=? n) && (n <=? 70)
   || (97 <=? n) && (n <=? 102))%nat.

Fixpoint all_hex (s : string) : bool :=
  match s with
  | EmptyString => true
  | String a s' => is_hex_char a && all_hex s'
  end.

(** ethers' [isHexString], the test [/^0x[0-9A-Fa-f]*$/]. *)
Definition isHexString (s : string) : bool :=
  match s with
  | String "0" (String "x" digits) => all_hex digits
  | _ => false
  end.

(** ethers' [hexDataLength] on a string: [null] unless the string is a hex
    string of even length, else the number of bytes it denotes. *)
Definition hexDataLength (data : string) : option Z :=
  if isHexString data && Nat.even (String.length data)
  then Some ((Z.of_nat (String.length data) - 2) / 2)
  else None.

(** [x + 4] where [x] may be [null], which counts as 0. *)
Definition plus4 (x : option Z) : Z :=
  match x with
  | Some n => n + 4
  | None => 0 + 4
  end.

(** [BigNumber.toNumber()]: the value when it fits in 53 bits, else the
    fault [overflow] is thrown. *)
Definition toNumber (b : BigNumber) : result Z :=
  if (Z.abs b <? 2 ^ 53)%Z then Ok b else Err "overflow".

Definition dquote : string := String (ascii_of_nat 34) EmptyString.

Definition AddressZero : address :=
  "0x0000000000000000000000000000000000000000".

(** ** The cross-chain greeter script

    The script fixes [newGreeting] inside [main]; the body is given for
    any greeting as [main_for] and [main] instantiates it. *)
Module greeter.

Definition main_for (cfg : config) (newGreeting : string) : prog unit :=
  log! "Cross-chain Greeter" ;;
  let! bridge := BridgeInit in
  log! "Deploying L1 Greeter 👋" ;;
  let! L1Greeter := GetContractFactory "GreeterL1" in
  let! l1Greeter :=
    Deploy "GreeterL1" ["Hello world in L1"; AddressZero; INBOX_ADDR cfg] in
  let! deployed1 := Deployed l1Greeter in
  log! "GreeterL1 deployed to " ++ contractAddress l1Greeter ;;
  log! "Deploying L2 Greeter 👋👋" ;;
  let! L2Greeter := GetContractFactory "GreeterL2" in
  let! l2Greeter := Deploy "GreeterL2" ["Hello world in L2"; AddressZero] in
  let! deployed2 := Deployed l2Greeter in
  log! "GreeterL2 deployed to " ++ contractAddress l2Greeter ;;
  let! updateL1Tx := UpdateL2Target l1Greeter (contractAddress l2Greeter) in
  let! updateL1Rec := TxWait updateL1Tx in
  let! updateL2Tx := UpdateL1Target l2Greeter (contractAddress l1Greeter) in
  let! updateL2Rec := TxWait updateL2Tx in
  log! "Counterpart contract addresses set in both greeters 👍" ;;
  let! currentL2Greeting := Greet l2Greeter in
  log! "Current L2 greeting: " ++ dquote ++ currentL2Greeting ++ dquote ;;
  log! "Updating greeting from L1 to L2:" ;;
  let newGreetingBytes := defaultAbiCoder_encode_string newGreeting in
  let newGreetingBytesLength := plus4 (hexDataLength newGreetingBytes) in
  let! price := GetTxnSubmissionPrice newGreetingBytesLength in
  let _submissionPriceWei := fst price in
  let nextUpdateTimestamp := snd price in
  log! "Current retryable base submission price: "
       ++ toString _submissionPriceWei ;;
  Clock (fun now =>
  let timeNow := now / 1000 in
  match toNumber nextUpdateTimestamp with
  | Err e => Throw e
  | Ok nextUpdate =>
  log! "Time in seconds till price updates: "
       ++ toString (nextUpdate - timeNow) ;;
  let submissionPriceWei := BN.mul _submissionPriceWei 5 in
  let! gasPriceBid := GetGasPrice in
  log! "L2 gas price: " ++ toString gasPriceBid ;;
  let maxGas := 100000 in
  let callValue := BN.add submissionPriceWei (BN.mul gasPriceBid maxGas) in
  log! "Sending greeting to L2 with " ++ toString callValue
       ++ " callValue for L2 fees:" ;;
  let! setGreetingTx :=
    SetGreetingInL2 l1Greeter newGreeting submissionPriceWei maxGas
                    gasPriceBid callValue in
  let! setGreetingRec := TxWait setGreetingTx in
  log! "Greeting txn confirmed on L1! 🙌 " ++ transactionHash setGreetingRec ;;
  let! inboxSeqNums := GetInboxSeqNumFromContractTransaction setGreetingRec in
  match inboxSeqNums with
  | None => Throw "Sequence number not found!"
  | Some inboxSeqNums =>
      let ourMessagesSequenceNum := first inboxSeqNums in
      let! retryableTxnHash :=
        CalculateL2RetryableTransactionHash ourMessagesSequenceNum in
      Clock (fun now' =>
      log! "Waiting for L2 txn 🕐... (should take < 10 minutes, current time: "
           ++ toTimeString cfg now' ;;
      let! retryRec := WaitForTransaction retryableTxnHash None None in
      log! "L2 retryable txn executed 🥳 " ++ transactionHash retryRec ;;
      let! newGreetingL2 := Greet l2Greeter in
      log! "Updated L2 greeting: " ++ dquote ++ newGreetingL2 ++ dquote ;;
      log! "✌️" ;;
      Return tt)
  end
  end).

Definition newGreeting : string := "Greeting from far, far away".

Definition main (cfg : config) : prog unit :=
  main_for cfg newGreeting.

End greeter.

(** ** The five scripts *)

Inductive script :=
| DepositViaLib
| DepositViaInbox
| WithdrawViaLib
| WithdrawViaArbSys
| Greeter.

Definition main_of (cfg : config) (s : script) : prog unit :=
  match s with
  | DepositViaLib => deposit_via_lib.main
  | DepositViaInbox => deposit_via_inbox.main cfg
  | WithdrawViaLib => withdraw_via_lib.main cfg
  | WithdrawViaArbSys => withdraw_via_arbsys.main cfg
  | Greeter => greeter.main cfg
  end.

(** A whole script: its [main] under the top-level handlers. *)
Definition script_prog (cfg : config) (s : script) : prog unit :=
  entry (main_of cfg s).

(** ** Reading a trace *)



(** The balance that the first balance query of the run resolves. *)
Definition balance_of (ev : event) : option BigNumber :=
  match ev with
  | EvCall c r =>
      match c as c0 return result (resp c0) -> option BigNumber with
      | GetL2EthBalance | GetBalance _ =>
          fun r => match r with
                   | Ok b => Some b
                   | Err _ => None
                   end
      | _ => fun _ => None
      end r
  | EvConsole _ _ => None
  end.

Fixpoint initial_balance (t : trace) : option BigNumber :=
  match t with
  | [] => None
  | ev :: t' =>
      match balance_of ev with
      | Some b => Some b
      | None => initial_balance t'
      end
  end.

(** What the sequence-number lookup resolves. *)
Definition lookup_of (ev : event) : option (option (list BigNumber)) :=
  match ev with
  | EvCall c r =>
      match c as c0
            return result (resp c0) -> option (option (list BigNumber)) with
      | GetInboxSeqNumFromContractTransaction _ =>
          fun r => match r with
                   | Ok l => Some l
                   | Err _ => None
                   end
      | _ => fun _ => None
      end r
  | EvConsole _ _ => None
  end.

(** The base submission price that the price query resolves. *)
Definition price_of (ev : event) : option BigNumber :=
  match ev with
  | EvCall c r =>
      match c as c0 return result (resp c0) -> option BigNumber with
      | GetTxnSubmissionPrice _ =>
          fun r => match r with
                   | Ok p => Some (fst p)
                   | Err _ => None
                   end
      | _ => fun _ => None
      end r
  | EvConsole _ _ => None
  end.

Definition is_withdraw_call (c : call) : bool :=
  match c with
  | WithdrawETH _ | ArbSysWithdrawEth _ _ _ => true
  | _ => false
  end.

Definition is_hash_prediction (c : call) : bool :=
  match c with
  | CalculateL2TransactionHash _
  | CalculateL2RetryableTransactionHash _ => true
  | _ => false
  end.


(** The exit status of a run that ended in [process.exit]. *)
Definition exit_status {A} (r : outcome A * trace) : option Z :=
  match fst r with
  | Exited code => Some code
  | _ => None
  end.

(** An error is thrown in a run of [p] when a [throw] rejects [p] or when
    an awaited call rejects. *)
Definition thrown (w : world) (p : prog unit) (e : error) : Prop :=
  fst (run w 0 p) = Rejected e \/
  exists c, In (EvCall c (Err e)) (snd (run w 0 p)).

(** The message of the error thrown when no sequence number is found. *)
Definition no_seq_num_message (s : script) : error :=
  match s with
  | DepositViaLib => "no seq num"
  | DepositViaInbox => "No seq num"
  | _ => "Sequence number not found!"
  end.

(** A lookup result without entries: [undefined] or an empty array. *)
Definition no_entries (l : option (list BigNumber)) : bool :=
  match l with
  | None => true
  | Some [] => true
  | Some (_ :: _) => false
  end.

Definition hash_prediction_invoked (t : trace) : bool :=
  existsb is_hash_prediction (calls t).

Definition withdrawal_invoked (t : trace) : bool :=
  existsb is_withdraw_call (calls t).

(** The configured withdrawal amount of a withdrawal script. *)
Definition withdraw_amount (s : script) : option BigNumber :=
  match s with
  | WithdrawViaLib => Some withdraw_via_lib.ethFromL2WithdrawAmount
  | WithdrawViaArbSys => Some withdraw_via_arbsys.ethFromL2WithdrawAmount
  | _ => None
  end.

Definition funded_message : string :=
  "Wallet properly funded: initiating withdrawal now".

(** The timeout arguments of the waits for a transaction in a trace. *)
Fixpoint wait_timeouts (cs : list call) : list (option Z) :=
  match cs with
  | [] => []
  | WaitForTransaction _ _ timeout :: cs' => timeout :: wait_timeouts cs'
  | _ :: cs' => wait_timeouts cs'
  end.

(** A script bounds its wait when some run of it waits with a timeout. *)
Definition bounds_wait (cfg : config) (s : script) : Prop :=
  exists w ms,
    In (Some ms) (wait_timeouts (calls (snd (run w 0 (main_of cfg s))))).

(** ** Programs that never handle a rejection *)

Inductive propagates {A} : prog A -> Prop :=
| propagates_return a : propagates (Return a)
| propagates_throw e : propagates (Throw e)
| propagates_exit code : propagates (Exit code)
| propagates_console m s k :
    propagates k -> propagates (Console m s k)
| propagates_clock k :
    (forall now, propagates (k now)) -> propagates (Clock k)
| propagates_await c k :
    (forall v, propagates (k v)) -> propagates (await c k).

(** * DataFeedConsumer.sol *)

Module DataFeedConsumer.

(** The outcome of a call to a contract. *)
Inductive outcome (A : Type) : Type :=
| Returns (a : A)
| Reverts (reason : string).
Arguments Returns {A} a.
Arguments Reverts {A} reason.

(** The tuple that the aggregator returns for a round.  The fields of
    unsigned type are naturals ([uint80] and [uint256] only bound them
    from above), [price] is an [int256]. *)
Record RoundData := {
  roundID : N;
  price : Z;
  startedAt : N;
  timestamp : N;
  answeredInRound : N
}.

(** The two functions of [AggregatorV3Interface] that the contract calls.
    The aggregator is another contract: its calls may revert. *)
Record AggregatorV3Interface := {
  latestRoundData : outcome RoundData;
  getRoundData : N -> outcome RoundData
}.

Section Consumer.

Variable priceFeed : AggregatorV3Interface.

Definition getLatestPrice : outcome RoundData :=
  latestRoundData priceFeed.

(** A revert of the aggregator bubbles up; [require(timestamp > 0, ...)]
    reverts with its message when the condition fails. *)
Definition getHistoricalPrice (_roundId : N) : outcome RoundData :=
  match getRoundData priceFeed _roundId with
  | Reverts reason => Reverts reason
  | Returns data =>
      if (0 <? timestamp data)%N
      then Returns data
      else Reverts "Round not completed!"
  end.

End Consumer.

(** An aggregator with a completed round 1 and an incomplete round 2. *)
Definition sample_feed : AggregatorV3Interface :=
  {| latestRoundData :=
       Returns {| roundID := 1; price := 4200000000000; startedAt := 1600;
                  timestamp := 1700; answeredInRound := 1 |};
     getRoundData := fun id =>
       if (id =? 1)%N then
         Returns {| roundID := 1; price := 4200000000000; startedAt := 1600;
                    timestamp := 1700; answeredInRound := 1 |}
       else if (id =? 2)%N then
         Returns {| roundID := 2; price := 0; startedAt := 0;
                    timestamp := 0; answeredInRound := 0 |}
       else Reverts "No data present" |}.

End DataFeedConsumer.

(** ** Sample worlds *)

(** A world in which every call succeeds. *)
Definition answer (c : call) : resp c :=
  match c return resp c with
  | BridgeInit => tt
  | GetL2EthBalance => 2000000000000
  | DepositETH _ => {| txHash := "0xd1" |}
  | WithdrawETH _ => {| txHash := "0xd2" |}
  | GetInboxSeqNumFromContractTransaction _ => Some [7]
  | CalculateL2TransactionHash _ => "0xe1"
  | CalculateL2RetryableTransactionHash _ => "0xe2"
  | GetWithdrawalsInL2Transaction _ => ["{ uniqueId: 1 }"]
  | BridgeHelper_getWithdrawalsInL2Transaction _ => ["{ uniqueId: 2 }"]
  | GetTxnSubmissionPrice _ => (300, 1700000100)
  | GetBalance _ => 3000000000000000
  | GetGasPrice => 20
  | WaitForTransaction h _ _ => {| transactionHash := h |}
  | InboxDepositEth _ _ _ => {| txHash := "0xd3" |}
  | ArbSysWithdrawEth _ _ _ => {| txHash := "0xd4" |}
  | TxWait tx => {| transactionHash := txHash tx |}
  | GetContractFactory _ => tt
  | Deploy name _ => {| contractAddress := "0xc0" ++ name |}
  | Deployed _ => tt
  | UpdateL2Target _ _ => {| txHash := "0xd5" |}
  | UpdateL1Target _ _ => {| txHash := "0xd6" |}
  | Greet _ => "Hello world in L2"
  | SetGreetingInL2 _ _ _ _ _ _ => {| txHash := "0xd7" |}
  end.

Definition happy_world : world :=
  {| respond := fun _ c => Ok (answer c);
     clock := fun _ => 1700000000000 |}.

Definition sample_config : config :=
  {| INBOX_ADDR := "0x1b";
     l2WalletAddress := "0xa11ce";
     toTimeString := fun _ => "12:00:00 GMT+0000" |}.

(** The sequence-number lookup finds an empty array. *)
Definition empty_lookup_world : world :=
  {| respond := fun _ c =>
       match c return result (resp c) with
       | GetInboxSeqNumFromContractTransaction _ => Ok (Some [])
       | c' => Ok (answer c')
       end;
     clock := fun _ => 1700000000000 |}.

(** The sequence-number lookup finds nothing. *)
Definition undefined_lookup_world : world :=
  {| respond := fun _ c =>
       match c return result (resp c) with
       | GetInboxSeqNumFromContractTransaction _ => Ok None
       | c' => Ok (answer c')
       end;
     clock := fun _ => 1700000000000 |}.

(** The wait for the L2 transaction times out. *)
Definition timeout_world : world :=
  {| respond := fun _ c =>
       match c return result (resp c) with
       | WaitForTransaction _ _ _ => Err "timeout exceeded"
       | c' => Ok (answer c')
       end;
     clock := fun _ => 1700000000000 |}.

(** The L2 wallet holds [b] wei. *)
Definition balance_world (b : BigNumber) : world :=
  {| respond := fun _ c =>
       match c return result (resp c) with
       | GetL2EthBalance => Ok b
       | GetBalance _ => Ok b
       | c' => Ok (answer c')
       end;
     clock := fun _ => 1700000000000 |}.

(** ** Reading the data flow of a run *)

(** The hash that a hash prediction resolves. *)
Definition prediction_of (ev : event) : option hash :=
  match ev with
  | EvCall c r =>
      match c as c0 return result (resp c0) -> option hash with
      | CalculateL2TransactionHash _
      | CalculateL2RetryableTransactionHash _ =>
          fun r => match r with
                   | Ok h => Some h
                   | Err _ => None
                   end
      | _ => fun _ => None
      end r
  | EvConsole _ _ => None
  end.

(** The sequence numbers handed to the hash predictions. *)
Fixpoint prediction_args (cs : list call) : list (option BigNumber) :=
  match cs with
  | [] => []
  | CalculateL2TransactionHash x :: cs'
  | CalculateL2RetryableTransactionHash x :: cs' => x :: prediction_args cs'
  | _ :: cs' => prediction_args cs'
  end.

(** The hashes that the provider is asked to wait for. *)
Fixpoint waited_hashes (cs : list call) : list hash :=
  match cs with
  | [] => []
  | WaitForTransaction h _ _ :: cs' => h :: waited_hashes cs'
  | _ :: cs' => waited_hashes cs'
  end.

(** The receipts on which the sequence number is looked up. *)
Fixpoint looked_up (cs : list call) : list TransactionReceipt :=
  match cs with
  | [] => []
  | GetInboxSeqNumFromContractTransaction rc :: cs' => rc :: looked_up cs'
  | _ :: cs' => looked_up cs'
  end.

(** The calls that send a transaction carrying ether. *)
Definition is_value_transfer (c : call) : bool :=
  match c with
  | DepositETH _ | WithdrawETH _ | InboxDepositEth _ _ _
  | ArbSysWithdrawEth _ _ _ | SetGreetingInL2 _ _ _ _ _ _ => true
  | _ => false
  end.

(** The transaction that such a call resolves. *)
Definition sent_tx_of (ev : event) : option ContractTransaction :=
  match ev with
  | EvCall c r =>
      match c as c0 return result (resp c0) -> option ContractTransaction with
      | DepositETH _ | WithdrawETH _ | InboxDepositEth _ _ _
      | ArbSysWithdrawEth _ _ _ | SetGreetingInL2 _ _ _ _ _ _ =>
          fun r => match r with
                   | Ok tx => Some tx
                   | Err _ => None
                   end
      | _ => fun _ => None
      end r
  | EvConsole _ _ => None
  end.

(** A transaction together with the receipt that [tx.wait()] resolves. *)
Definition confirmation_of (ev : event)
  : option (ContractTransaction * TransactionReceipt) :=
  match ev with
  | EvCall c r =>
      match c as c0
            return result (resp c0)
                   -> option (ContractTransaction * TransactionReceipt) with
      | TxWait tx =>
          fun r => match r with
                   | Ok rc => Some (tx, rc)
                   | Err _ => None
                   end
      | _ => fun _ => None
      end r
  | EvConsole _ _ => None
  end.

(** The gas price that the L2 provider resolves. *)
Definition gas_price_of (ev : event) : option BigNumber :=
  match ev with
  | EvCall c r =>
      match c as c0 return result (resp c0) -> option BigNumber with
      | GetGasPrice =>
          fun r => match r with
                   | Ok g => Some g
                   | Err _ => None
                   end
      | _ => fun _ => None
      end r
  | EvConsole _ _ => None
  end.

(** The time of the next price update that the price query resolves. *)
Definition next_update_of (ev : event) : option BigNumber :=
  match ev with
  | EvCall c r =>
      match c as c0 return result (resp c0) -> option BigNumber with
      | GetTxnSubmissionPrice _ =>
          fun r => match r with
                   | Ok p => Some (snd p)
                   | Err _ => None
                   end
      | _ => fun _ => None
      end r
  | EvConsole _ _ => None
  end.

(** The contract that the deployment of the factory [name] resolves. *)
Definition deployed_as (name : string) (ev : event) : option Contract :=
  match ev with
  | EvCall c r =>
      match c as c0 return result (resp c0) -> option Contract with
      | Deploy name' _ =>
          fun r => match r with
                   | Ok k => if String.eqb name name' then Some k else None
                   | Err _ => None
                   end
      | _ => fun _ => None
      end r
  | EvConsole _ _ => None
  end.

(** An event of a run in which nothing went wrong: no rejected call and no
    [console.error]. *)
Definition is_clean (ev : event) : bool :=
  match ev with
  | EvConsole ConsoleError _ => false
  | EvConsole _ _ => true
  | EvCall _ (Err _) => false
  | EvCall _ (Ok _) => true
  end.

(** The one withdrawal call of a withdrawal script. *)
Definition withdrawal_of (cfg : config) (s : script) : option call :=
  match s with
  | WithdrawViaLib =>
      Some (WithdrawETH withdraw_via_lib.ethFromL2WithdrawAmount)
  | WithdrawViaArbSys =>
      Some (ArbSysWithdrawEth "0x0000000000000000000000000000000000000064"
              (l2WalletAddress cfg)
              withdraw_via_arbsys.ethFromL2WithdrawAmount)
  | _ => None
  end.

(** What a call of the greeter must be wired to: the greeters are the
    contracts that the two deployments resolved, and each is pointed at
    the address of the other. *)
Definition wired (t : trace) (c : call) : Prop :=
  match c with
  | UpdateL2Target k target =>
      In (Some k) (map (deployed_as "GreeterL1") t) /\
      exists l2, In (Some l2) (map (deployed_as "GreeterL2") t) /\
                 target = contractAddress l2
  | UpdateL1Target k target =>
      In (Some k) (map (deployed_as "GreeterL2") t) /\
      exists l1, In (Some l1) (map (deployed_as "GreeterL1") t) /\
                 target = contractAddress l1
  | SetGreetingInL2 k _ _ _ _ _ =>
      In (Some k) (map (deployed_as "GreeterL1") t)
  | Greet k => In (Some k) (map (deployed_as "GreeterL2") t)
  | _ => True
  end.

(** The next price update lies beyond what a JavaScript number holds. *)
Definition far_update_world : world :=
  {| respond := fun _ c =>
       match c return result (resp c) with
       | GetTxnSubmissionPrice _ => Ok (300, 2 ^ 53)
       | c' => Ok (answer c')
       end;
     clock := fun _ => 1700000000000 |}.

(** * Withdraw.sol *)

Module Withdraw.

Import DataFeedConsumer.

(** The two functions of the [ArbSys] precompile that the contract calls,
    each with the value sent along with the call.  The interface file is
    not among the sources. *)
Record ArbSys := {
  arbsys_sendTxToL1 : N -> address -> list byte -> outcome N;
  arbsys_withdrawEth : N -> address -> outcome N
}.

(** [event L2ToL1TxCreated(uint256 indexed withdrawalId)] *)
Inductive log := L2ToL1TxCreated (withdrawalId : N).

(** The contract has no storage; its state on the chain is its ether
    balance and the events it has emitted. *)
Record state := { balance : N; logs : list log }.

Section Contract.

(** [ArbSys constant arbsys = ArbSys(address(100))] *)
Variable arbsys : ArbSys.

(** A payable function first receives [msg.value]; the call to [arbsys]
    names no value, so it carries none.  A revert of [arbsys] reverts the
    whole call. *)
Definition sendTxToL1 (st : state) (msg_value : N) (_destAddress : address)
    (_calldataForL1 : list byte) : outcome (N * state) :=
  let received := (balance st + msg_value)%N in
  match arbsys_sendTxToL1 arbsys 0 _destAddress _calldataForL1 with
  | Reverts reason => Reverts reason
  | Returns withdrawalId =>
      Returns (withdrawalId,
               {| balance := received;
                  logs := (logs st ++ [L2ToL1TxCreated withdrawalId])%list |})
  end.

Definition withdrawEth (st : state) (msg_value : N) (_destAddress : address)
  : outcome (N * state) :=
  let received := (balance st + msg_value)%N in
  match arbsys_withdrawEth arbsys 0 _destAddress with
  | Reverts reason => Reverts reason
  | Returns withdrawalId =>
      Returns (withdrawalId,
               {| balance := received;
                  logs := (logs st ++ [L2ToL1TxCreated withdrawalId])%list |})
  end.

End Contract.

End Withdraw.

(** The closing line of the scripts that report the L2 balance. *)
Definition balance_report (s : script) (b0 b1 : BigNumber) : option string :=
  match s with
  | DepositViaLib =>
      Some ("your L2 balance is updated from " ++ toString b0 ++ " to "
            ++ toString b1)
  | DepositViaInbox | WithdrawViaArbSys =>
      Some ("Your L2 balance is updated from " ++ toString b0 ++ " to "
            ++ toString b1)
  | _ => None
  end.

(** An ArbSys that numbers the withdrawals by the value they carry and
    refuses the empty destination. *)
Definition sample_arbsys : Withdraw.ArbSys :=
  {| Withdraw.arbsys_sendTxToL1 := fun value dest _ =>
       if String.eqb dest "" then DataFeedConsumer.Reverts "no destination"
       else DataFeedConsumer.Returns (7 + value)%N;
     Withdraw.arbsys_withdrawEth := fun value dest =>
       if String.eqb dest "" then DataFeedConsumer.Reverts "no destination"
       else DataFeedConsumer.Returns (7 + value)%N |}.




(** * Proofs *)

(** ** General facts about [run] *)

Lemma run_entry (p : prog unit) (w : world) (n : nat) :
  run w n (entry p) =
  match run w n p with
  | (Resolved _, t) => (Exited 0, t)
  | (Rejected e, t) => (Exited 1, (t ++ [EvConsole ConsoleError e])%list)
  | (Exited code, t) => (Exited code, t)
  end.
Proof.
  unfold entry. revert n.
  induction p as [a|e|code|m s k IH|k IH|c k IH]; intros n; simpl;
    try reflexivity.
  - rewrite IH. destruct (run w n k) as [[a|e|code] t]; reflexivity.
  - apply IH.
  - rewrite IH.
    destruct (run w (S n) (k (respond w n c))) as [[a|e|code] t]; reflexivity.
Qed.

Lemma rejection_is_last (A : Type) (p : prog A) :
  propagates p ->
  forall (w : world) (n : nat) (c : call) (e : error),
    In (EvCall c (Err e)) (snd (run w n p)) ->
    fst (run w n p) = Rejected e /\
    exists pre, snd (run w n p) = (pre ++ [EvCall c (Err e)])%list.
Proof.
  induction 1 as [a|e0|code|m s k _ IH|k _ IH|c0 k _ IH];
    intros w n c e Hin; simpl in *; try contradiction.
  - destruct (run w n k) as [o t] eqn:E. simpl in *.
    destruct Hin as [Heq|Hin]; [discriminate|].
    specialize (IH w n c e). rewrite E in IH.
    destruct (IH Hin) as [Ho [pre Hp]]. simpl in *. split; [exact Ho|].
    exists (EvConsole m s :: pre). now rewrite Hp.
  - apply IH. exact Hin.
  - destruct (respond w n c0) as [v|e0] eqn:Ea.
    + destruct (run w (S n) (k v)) as [o t] eqn:E. simpl in *.
      destruct Hin as [Heq|Hin].
      * apply (f_equal rejection) in Heq. discriminate.
      * specialize (IH v w (S n) c e). rewrite E in IH.
        destruct (IH Hin) as [Ho [pre Hp]]. simpl in *. split; [exact Ho|].
        exists (EvCall c0 (Ok v) :: pre). now rewrite Hp.
    + simpl in *. destruct Hin as [Heq|[]].
      pose proof (f_equal rejection Heq) as He. simpl in He.
      injection He as He. subst e0. split; [reflexivity|].
      exists []. simpl. now rewrite Heq.
Qed.

Arguments toString : simpl never.
Arguments plus4 : simpl never.
Arguments hexDataLength : simpl never.
Arguments defaultAbiCoder_encode_string : simpl never.
Arguments abi_encode_string : simpl never.
Arguments toNumber : simpl never.
Arguments BN.lt : simpl never.
Arguments BN.mul : simpl never.
Arguments BN.add : simpl never.
Arguments Z.div : simpl never.

(** One step of a run: decide the test or the answer the run waits on. *)
Ltac decide_next :=
  match goal with
  | |- context [toNumber ?b] => destruct (toNumber b) as [?|?] eqn:?
  | |- context [if BN.lt ?a ?b then _ else _] =>
      destruct (BN.lt a b) eqn:?
  | |- context [match ?v with Some _ => _ | None => _ end] =>
      is_var v; destruct v as [?|]
  | |- context [respond ?w ?n ?c] =>
      destruct (respond w n c) as [?|?] eqn:?
  end; simpl.

Ltac unfold_scripts :=
  unfold script_prog, main_of, deposit_via_lib.main, deposit_via_inbox.main,
    withdraw_via_lib.main, withdraw_via_arbsys.main, greeter.main,
    greeter.main_for.

Lemma main_propagates (cfg : config) (s : script) :
  propagates (main_of cfg s).
Proof.
  destruct s; unfold_scripts;
    repeat first
      [ apply propagates_console
      | apply propagates_await; intros
      | apply propagates_clock; intros
      | apply propagates_return
      | apply propagates_throw
      | apply propagates_exit
      | progress cbv zeta
      | match goal with
        | |- propagates (match ?x with _ => _ end) => destruct x
        | |- propagates (if ?x then _ else _) => destruct x
        end ].
Qed.



Ltac find_event :=
  simpl; repeat first [ left; reflexivity | right ].


(** C6: whatever error is thrown during a run of a script (by a [throw]
    or by an awaited call that rejects, such as a wait that times out),
    the top-level handler logs it with [console.error], which writes to
    standard error, and the process exits with status 1; a rejected call
    is the last thing [main] does, so nothing is retried or recovered. *)
Theorem thrown_error_is_logged_and_exits_1
    (cfg : config) (s : script) (w : world) (e : error) :
  thrown w (main_of cfg s) e ->
  run w 0 (script_prog cfg s) =
    (Exited 1,
     (snd (run w 0 (main_of cfg s)) ++ [EvConsole ConsoleError e])%list) /\
  stream_of ConsoleError = Stderr /\
  forall c e',
    In (EvCall c (Err e')) (snd (run w 0 (main_of cfg s))) ->
    exists pre,
      snd (run w 0 (main_of cfg s)) = (pre ++ [EvCall c (Err e')])%list.
Proof.
  intros H.
  assert (Hlast := rejection_is_last (main_propagates cfg s) w 0).
  split; [|split; [reflexivity|]].
  - unfold script_prog. rewrite run_entry.
    assert (Hr : fst (run w 0 (main_of cfg s)) = Rejected e).
    { destruct H as [Hr|[c Hin]]; [exact Hr|]. now apply (Hlast c e). }
    destruct (run w 0 (main_of cfg s)) as [o t]. simpl in Hr. subst o.
    reflexivity.
  - intros c e' Hin. now apply (Hlast c e').
Qed.

Lemma thrown_error_is_logged_and_exits_1_witness :
  thrown timeout_world (main_of sample_config DepositViaLib)
         "timeout exceeded" /\
  exit_status (run timeout_world 0 (script_prog sample_config DepositViaLib))
    = Some 1.
Proof.
  assert (H : thrown timeout_world (main_of sample_config DepositViaLib)
                     "timeout exceeded").
  { left. reflexivity. }
  split; [exact H|].
  destruct (thrown_error_is_logged_and_exits_1 sample_config DepositViaLib H)
    as [Hrun _].
  rewrite Hrun. reflexivity.
Defined.

(** C1, as stated, fails: when the lookup resolves to an empty array the
    deposit script does not throw and goes on to predict the hash. *)
Lemma empty_lookup_reaches_hash_prediction :
  ~ (forall l,
       In (Some l)
          (map lookup_of
               (snd (run empty_lookup_world 0
                         (main_of sample_config DepositViaLib)))) ->
       no_entries l = true ->
       (exists e,
          fst (run empty_lookup_world 0
                   (main_of sample_config DepositViaLib)) = Rejected e) /\
       hash_prediction_invoked
         (snd (run empty_lookup_world 0
                   (main_of sample_config DepositViaLib))) = false).
Proof.
  intros H. destruct (H (Some [])) as [_ Hno].
  - vm_compute. tauto.
  - reflexivity.
  - vm_compute in Hno. discriminate.
Qed.

(** C1, amended: when the sequence-number lookup resolves to [undefined],
    [main] throws the script's "no sequence number" error and no hash
    prediction is invoked in the run. *)
Theorem undefined_lookup_throws_before_hash_prediction
    (cfg : config) (s : script) (w : world) :
  In (Some None) (map lookup_of (snd (run w 0 (main_of cfg s)))) ->
  fst (run w 0 (main_of cfg s)) = Rejected (no_seq_num_message s) /\
  hash_prediction_invoked (snd (run w 0 (main_of cfg s))) = false.
Proof.
  unfold hash_prediction_invoked.
  destruct s; unfold_scripts; unfold await; simpl;
    repeat decide_next; intros H;
    repeat (destruct H as [H|H]; try discriminate H);
    try contradiction; split; reflexivity.
Qed.

Lemma undefined_lookup_throws_before_hash_prediction_witness :
  In (Some None)
     (map lookup_of
          (snd (run undefined_lookup_world 0 (main_of sample_config Greeter))))
  /\ fst (run undefined_lookup_world 0 (main_of sample_config Greeter))
     = Rejected "Sequence number not found!".
Proof.
  assert (H : In (Some None)
     (map lookup_of
          (snd (run undefined_lookup_world 0
                    (main_of sample_config Greeter))))).
  { vm_compute. tauto. }
  split; [exact H|].
  exact (proj1 (undefined_lookup_throws_before_hash_prediction
                  sample_config Greeter undefined_lookup_world H)).
Defined.

Ltac split_in H :=
  simpl in H;
  repeat (destruct H as [H|H]; [try discriminate H|]);
  try contradiction.

Lemma lt_false_ge (a b : BigNumber) : BN.lt a b = false -> b <= a.
Proof. unfold BN.lt. intros H. now apply Z.ltb_ge. Qed.

Lemma lt_true_lt (a b : BigNumber) : BN.lt a b = true -> a < b.
Proof. unfold BN.lt. intros H. now apply Z.ltb_lt. Qed.








(** C2: in a withdrawal script, when the balance that the initial query
    resolves is strictly below the configured amount, the script exits
    with status 1 and no withdrawal call is invoked in the run. *)
Theorem insufficient_balance_exits_1_without_withdrawal
    (cfg : config) (s : script) (w : world) (amount b : BigNumber) :
  withdraw_amount s = Some amount ->
  initial_balance (snd (run w 0 (script_prog cfg s))) = Some b ->
  b < amount ->
  fst (run w 0 (script_prog cfg s)) = Exited 1 /\
  withdrawal_invoked (snd (run w 0 (script_prog cfg s))) = false.
Proof.
  unfold withdrawal_invoked, script_prog. rewrite run_entry.
  destruct s; simpl; intros Ha; try discriminate Ha;
    injection Ha as <-; unfold_scripts; unfold await; simpl;
    repeat decide_next; intros Hb Hlt; try discriminate Hb;
    injection Hb as ->;
    try (split; reflexivity);
    match goal with
    | H : BN.lt _ _ = false |- _ => apply lt_false_ge in H; lia
    end.
Qed.

Lemma insufficient_balance_exits_1_without_withdrawal_witness :
  fst (run (balance_world 999999999999) 0
           (script_prog sample_config WithdrawViaLib)) = Exited 1 /\
  withdrawal_invoked
    (snd (run (balance_world 999999999999) 0
              (script_prog sample_config WithdrawViaLib))) = false.
Proof.
  apply (@insufficient_balance_exits_1_without_withdrawal
           sample_config WithdrawViaLib (balance_world 999999999999)
           1000000000000 999999999999).
  - reflexivity.
  - reflexivity.
  - lia.
Defined.

(** C8: in a withdrawal script, when the balance that the initial query
    resolves equals the configured amount, the guard passes (the script
    reports the wallet as funded) and the withdrawal call is invoked. *)
Theorem exact_balance_passes_guard
    (cfg : config) (s : script) (w : world) (amount : BigNumber) :
  withdraw_amount s = Some amount ->
  initial_balance (snd (run w 0 (script_prog cfg s))) = Some amount ->
  In (EvConsole ConsoleLog funded_message)
     (snd (run w 0 (script_prog cfg s))) /\
  withdrawal_invoked (snd (run w 0 (script_prog cfg s))) = true.
Proof.
  unfold withdrawal_invoked, script_prog. rewrite run_entry.
  destruct s; simpl; intros Ha; try discriminate Ha;
    injection Ha as <-; unfold_scripts; unfold await; simpl;
    repeat decide_next; intros Hb; try discriminate Hb;
    injection Hb as ->;
    try (split; [find_event | reflexivity]);
    match goal with
    | H : BN.lt _ _ = true |- _ => apply lt_true_lt in H; lia
    end.
Qed.

Lemma exact_balance_passes_guard_witness :
  In (EvConsole ConsoleLog funded_message)
     (snd (run (balance_world 1000000000000000) 0
               (script_prog sample_config WithdrawViaArbSys))) /\
  withdrawal_invoked
    (snd (run (balance_world 1000000000000000) 0
              (script_prog sample_config WithdrawViaArbSys))) = true.
Proof.
  apply (@exact_balance_passes_guard
           sample_config WithdrawViaArbSys (balance_world 1000000000000000)
           1000000000000000).
  - reflexivity.
  - reflexivity.
Defined.

(** ** The greeter's fees *)

Ltac run_greeter :=
  unfold greeter.main, greeter.main_for, await; simpl; repeat decide_next.

(** C3: whenever the greeter script sends [setGreetingInL2], the submission
    price it passes is the queried base price times 5, an exact product of
    integers. *)
Theorem adjusted_submission_price_is_five_times_base
    (cfg : config) (w : world) (P : BigNumber)
    (c : Contract) (g : string) (sp : BigNumber) (mg : Z)
    (gpb v : BigNumber) :
  In (Some P) (map price_of (snd (run w 0 (greeter.main cfg)))) ->
  In (SetGreetingInL2 c g sp mg gpb v)
     (calls (snd (run w 0 (greeter.main cfg)))) ->
  sp = P * 5.
Proof.
  run_greeter; intros HP Hc; split_in Hc;
    injection Hc as <- <- <- <- <- <-;
    split_in HP; injection HP as <-; reflexivity.
Qed.

Lemma adjusted_submission_price_is_five_times_base_witness :
  In (Some 300)
     (map price_of (snd (run happy_world 0 (greeter.main sample_config)))) /\
  In (SetGreetingInL2 {| contractAddress := "0xc0GreeterL1" |} greeter.newGreeting
                      1500 100000 20 2001500)
     (calls (snd (run happy_world 0 (greeter.main sample_config)))) /\
  1500 = 300 * 5.
Proof.
  assert (H1 : In (Some 300)
     (map price_of (snd (run happy_world 0 (greeter.main sample_config))))).
  { vm_compute. tauto. }
  assert (H2 : In (SetGreetingInL2 {| contractAddress := "0xc0GreeterL1" |}
                      greeter.newGreeting 1500 100000 20 2001500)
     (calls (snd (run happy_world 0 (greeter.main sample_config))))).
  { vm_compute. tauto. }
  split; [exact H1|]. split; [exact H2|].
  exact (adjusted_submission_price_is_five_times_base _ _ _ _ _ _ _ _ _ H1 H2).
Defined.

(** C4: whenever the greeter script sends [setGreetingInL2], the value it
    attaches is the submission price it passes plus the gas price bid
    times the gas limit, an exact sum and product of integers. *)
Theorem callvalue_is_submission_price_plus_gas
    (cfg : config) (w : world)
    (c : Contract) (g : string) (sp : BigNumber) (mg : Z)
    (gpb v : BigNumber) :
  In (SetGreetingInL2 c g sp mg gpb v)
     (calls (snd (run w 0 (greeter.main cfg)))) ->
  v = sp + gpb * mg.
Proof.
  run_greeter; intros Hc; split_in Hc;
    injection Hc as <- <- <- <- <- <-; reflexivity.
Qed.

Lemma callvalue_is_submission_price_plus_gas_witness :
  In (SetGreetingInL2 {| contractAddress := "0xc0GreeterL1" |} greeter.newGreeting
                      1500 100000 20 2001500)
     (calls (snd (run happy_world 0 (greeter.main sample_config)))) /\
  2001500 = 1500 + 20 * 100000.
Proof.
  assert (H : In (SetGreetingInL2 {| contractAddress := "0xc0GreeterL1" |}
                      greeter.newGreeting 1500 100000 20 2001500)
     (calls (snd (run happy_world 0 (greeter.main sample_config))))).
  { vm_compute. tauto. }
  split; [exact H|].
  exact (callvalue_is_submission_price_plus_gas _ _ _ _ _ _ _ _ H).
Defined.

(** ** The calldata size *)

Lemma hex_of_byte_is_hex (b : byte) :
  is_hex_char (hex_digit (Byte.to_N b / 16)) = true /\
  is_hex_char (hex_digit (Byte.to_N b mod 16)) = true.
Proof. destruct b; split; reflexivity. Qed.

Lemma all_hex_hex_body (bs : list byte) : all_hex (hex_body bs) = true.
Proof.
  induction bs as [|b bs IH]; [reflexivity|].
  destruct (hex_of_byte_is_hex b) as [Hhi Hlo].
  cbn [hex_body all_hex]. now rewrite Hhi, Hlo, IH.
Qed.

Lemma length_hex_body (bs : list byte) :
  String.length (hex_body bs) = (2 * List.length bs)%nat.
Proof.
  induction bs as [|b bs IH]; [reflexivity|].
  cbn [hex_body String.length List.length]. rewrite IH. lia.
Qed.

Lemma even_double (n : nat) : Nat.even (2 * n) = true.
Proof.
  induction n as [|n IH]; [reflexivity|].
  replace (2 * S n)%nat with (S (S (2 * n))) by lia. exact IH.
Qed.

(** [hexDataLength] counts the bytes that [hexlify] rendered. *)
Lemma hexDataLength_hexlify (bs : list byte) :
  hexDataLength (hexlify bs) = Some (Z.of_nat (List.length bs)).
Proof.
  unfold hexDataLength, hexlify.
  change ("0x" ++ hex_body bs) with (String "0" (String "x" (hex_body bs))).
  cbn [isHexString String.length].
  rewrite all_hex_hex_body, length_hex_body.
  change (Nat.even (S (S (2 * List.length bs))))
    with (Nat.even (2 * List.length bs)).
  rewrite even_double. cbn [andb]. f_equal.
  replace (Z.of_nat (S (S (2 * List.length bs))) - 2)
    with (Z.of_nat (List.length bs) * 2) by lia.
  apply Z.div_mul. lia.
Qed.

Lemma length_be_bytes (k : nat) (z : Z) : List.length (be_bytes k z) = k.
Proof. induction k as [|k IH]; simpl; [reflexivity | now rewrite IH]. Qed.

Lemma length_list_byte_of_string (s : string) :
  List.length (list_byte_of_string s) = String.length s.
Proof.
  unfold list_byte_of_string. rewrite length_map.
  induction s as [|a s IH]; simpl; [reflexivity | now rewrite IH].
Qed.

(** The encoding of a string takes two words and its bytes rounded up to
    whole words. *)
Lemma length_abi_encode_string (s : string) :
  Z.of_nat (List.length (abi_encode_string s)) =
  64 + 32 * ((Z.of_nat (String.length s) + 31) / 32).
Proof.
  unfold abi_encode_string, word32, padding.
  rewrite !length_app, !length_be_bytes, repeat_length,
    length_list_byte_of_string.
  set (n := Z.of_nat (String.length s)).
  assert (Hn : 0 <= n) by (unfold n; lia).
  rewrite !Nat2Z.inj_add, Z2Nat.id by (apply Z.mod_pos_bound; lia).
  fold n. change (Z.of_nat 32) with 32.
  pose proof (Z.div_mod n 32 ltac:(lia)) as Hdm.
  pose proof (Z.mod_pos_bound n 32 ltac:(lia)) as Hb.
  destruct (Z.eq_dec (n mod 32) 0) as [H0|H0].
  - rewrite H0 in *. change ((32 - 0) mod 32) with 0.
    replace (n + 31) with (31 + (n / 32) * 32) by lia.
    rewrite Z.div_add by lia. change (31 / 32) with 0. lia.
  - rewrite (Z.mod_small (32 - n mod 32)) by lia.
    replace (n + 31) with ((n mod 32 - 1) + (n / 32 + 1) * 32) by lia.
    rewrite Z.div_add by lia. rewrite (Z.div_small (n mod 32 - 1)) by lia.
    lia.
Qed.

(** C9: whenever the greeter queries the submission price for a greeting,
    the size it passes is the number of bytes of the ABI encoding of that
    greeting plus 4. *)
Theorem calldata_size_is_encoding_plus_selector
    (cfg : config) (g : string) (w : world) (n : Z) :
  In (GetTxnSubmissionPrice n) (calls (snd (run w 0 (greeter.main_for cfg g)))) ->
  n = Z.of_nat (List.length (abi_encode_string g)) + 4.
Proof.
  remember (Z.of_nat (List.length (abi_encode_string g)) + 4) as size
    eqn:Hsize.
  unfold greeter.main_for.
  remember (defaultAbiCoder_encode_string g) as newGreetingBytes eqn:Hbytes.
  unfold await; simpl; repeat decide_next; intros Hc; split_in Hc;
    injection Hc as <-; subst newGreetingBytes size;
    unfold plus4, defaultAbiCoder_encode_string;
    rewrite hexDataLength_hexlify; reflexivity.
Qed.

Lemma calldata_size_is_encoding_plus_selector_witness :
  In (GetTxnSubmissionPrice 100)
     (calls (snd (run happy_world 0 (greeter.main_for sample_config greeter.newGreeting))))
  /\ 100 = Z.of_nat (List.length (abi_encode_string greeter.newGreeting)) + 4.
Proof.
  assert (H : In (GetTxnSubmissionPrice 100)
     (calls (snd (run happy_world 0
                      (greeter.main_for sample_config greeter.newGreeting))))).
  { vm_compute. tauto. }
  split; [exact H|].
  exact (calldata_size_is_encoding_plus_selector _ _ _ _ H).
Defined.

(** ** The timeout of the wait for the L2 transaction *)

(** C7, as stated, fails: the bound is not in exactly one script, both
    deposit scripts wait with it. *)
Lemma two_scripts_bound_the_wait :
  ~ (forall s1 s2,
       bounds_wait sample_config s1 -> bounds_wait sample_config s2 ->
       s1 = s2).
Proof.
  intros H.
  assert (Hlib : bounds_wait sample_config DepositViaLib).
  { exists happy_world, (1000 * 60 * 12). vm_compute. tauto. }
  assert (Hinbox : bounds_wait sample_config DepositViaInbox).
  { exists happy_world, (1000 * 60 * 12). vm_compute. tauto. }
  specialize (H _ _ Hlib Hinbox). discriminate H.
Qed.

(** C7, amended: every wait for the counterpart L2 transaction passes
    either the timeout [1000 * 60 * 12] milliseconds, which is what both
    deposit scripts do, or no timeout, which is what the greeter does; the
    withdrawal scripts never wait for an L2 transaction. *)
Theorem wait_timeout_is_twelve_minutes_in_deposit_scripts
    (cfg : config) (s : script) (w : world) (timeout : option Z) :
  In timeout (wait_timeouts (calls (snd (run w 0 (main_of cfg s))))) ->
  match s with
  | DepositViaLib | DepositViaInbox => timeout = Some (1000 * 60 * 12)
  | Greeter => timeout = None
  | WithdrawViaLib | WithdrawViaArbSys => False
  end.
Proof.
  destruct s; unfold_scripts; unfold await; simpl; repeat decide_next;
    intros H; split_in H; symmetry; exact H.
Qed.

Lemma wait_timeout_is_twelve_minutes_in_deposit_scripts_witness :
  In (Some 720000)
     (wait_timeouts
        (calls (snd (run happy_world 0 (main_of sample_config DepositViaInbox)))))
  /\ Some 720000 = Some (1000 * 60 * 12).
Proof.
  assert (H : In (Some 720000)
     (wait_timeouts
        (calls (snd (run happy_world 0
                         (main_of sample_config DepositViaInbox)))))).
  { vm_compute. tauto. }
  split; [exact H|].
  exact (wait_timeout_is_twelve_minutes_in_deposit_scripts
           sample_config DepositViaInbox happy_world (Some 720000) H).
Defined.

(** ** How a script ends *)

(** X2: a script that exits with status 0 has run its [main] to the end:
    no awaited call was rejected, nothing was written with
    [console.error], and the balance guard of a withdrawal script did not
    stop it. *)
Theorem exit_0_means_clean_run (cfg : config) (s : script) (w : world) :
  fst (run w 0 (script_prog cfg s)) = Exited 0 ->
  run w 0 (main_of cfg s) =
    (Resolved tt, snd (run w 0 (script_prog cfg s))) /\
  forallb is_clean (snd (run w 0 (script_prog cfg s))) = true.
Proof.
  unfold script_prog. rewrite run_entry.
  destruct s; unfold_scripts; unfold await; simpl; repeat decide_next;
    intros H; try discriminate H; split; reflexivity.
Qed.

Lemma exit_0_means_clean_run_witness :
  forallb is_clean
    (snd (run happy_world 0 (script_prog sample_config Greeter))) = true.
Proof.
  exact (proj2 (@exit_0_means_clean_run sample_config Greeter happy_world
                  eq_refl)).
Defined.

(** X3: a run sends at most one transaction that carries ether (a deposit,
    a withdrawal or the greeting with its call value); none is ever sent
    twice. *)
Theorem at_most_one_value_transfer (cfg : config) (s : script) (w : world) :
  (List.length
     (filter is_value_transfer (calls (snd (run w 0 (script_prog cfg s)))))
   <= 1)%nat.
Proof.
  unfold script_prog. rewrite run_entry.
  destruct s; unfold_scripts; unfold await; simpl; repeat decide_next; lia.
Qed.

(** ** The data flow from the L1 transaction to the L2 wait *)

(** X4: the sequence number is looked up on the receipt of the very
    transaction that carried the ether: the receipt handed to the lookup
    is the one that [wait()] resolved for the transaction that the deposit
    (or [setGreetingInL2]) resolved. *)
Theorem lookup_is_on_the_receipt_of_the_sent_transaction
    (cfg : config) (s : script) (w : world) (rc : TransactionReceipt) :
  In rc (looked_up (calls (snd (run w 0 (main_of cfg s))))) ->
  exists tx,
    In (Some tx) (map sent_tx_of (snd (run w 0 (main_of cfg s)))) /\
    In (Some (tx, rc)) (map confirmation_of (snd (run w 0 (main_of cfg s)))).
Proof.
  destruct s; unfold_scripts; unfold await; simpl; repeat decide_next;
    intros H; split_in H; subst rc; simpl;
    match goal with
    | |- context [Some (?tx, _)] => exists tx; split; solve [find_event]
    end.
Qed.

Lemma lookup_is_on_the_receipt_of_the_sent_transaction_witness :
  exists tx,
    In (Some tx)
       (map sent_tx_of
            (snd (run happy_world 0 (main_of sample_config DepositViaInbox))))
    /\ In (Some (tx, {| transactionHash := "0xd3" |}))
          (map confirmation_of
               (snd (run happy_world 0
                         (main_of sample_config DepositViaInbox)))).
Proof.
  apply (@lookup_is_on_the_receipt_of_the_sent_transaction
           sample_config DepositViaInbox happy_world).
  vm_compute. tauto.
Defined.

(** X5: the hash prediction is given the first sequence number that the
    lookup found ([undefined] when the array is empty), and nothing
    else. *)
Theorem prediction_takes_first_sequence_number
    (cfg : config) (s : script) (w : world) (x : option BigNumber) :
  In x (prediction_args (calls (snd (run w 0 (main_of cfg s))))) ->
  exists l,
    In (Some (Some l)) (map lookup_of (snd (run w 0 (main_of cfg s)))) /\
    x = first l.
Proof.
  destruct s; unfold_scripts; unfold await; simpl; repeat decide_next;
    intros H; split_in H; subst x; simpl;
    match goal with
    | |- context [Some (Some ?l)] =>
        exists l; split; [solve [find_event] | reflexivity]
    end.
Qed.

Lemma prediction_takes_first_sequence_number_witness :
  exists l,
    In (Some (Some l))
       (map lookup_of
            (snd (run happy_world 0 (main_of sample_config DepositViaLib))))
    /\ Some 7 = first l.
Proof.
  apply (@prediction_takes_first_sequence_number
           sample_config DepositViaLib happy_world (Some 7)).
  vm_compute. tauto.
Defined.

(** X6: the only transaction a script waits for on L2 is the one whose
    hash the prediction resolved. *)
Theorem wait_is_for_the_predicted_hash
    (cfg : config) (s : script) (w : world) (h : hash) :
  In h (waited_hashes (calls (snd (run w 0 (main_of cfg s))))) ->
  In (Some h) (map prediction_of (snd (run w 0 (main_of cfg s)))).
Proof.
  destruct s; unfold_scripts; unfold await; simpl; repeat decide_next;
    intros H; split_in H; subst h; find_event.
Qed.

Lemma wait_is_for_the_predicted_hash_witness :
  In (Some "0xe2")
     (map prediction_of
          (snd (run happy_world 0 (main_of sample_config Greeter)))).
Proof.
  apply (@wait_is_for_the_predicted_hash
           sample_config Greeter happy_world "0xe2").
  vm_compute. tauto.
Defined.

(** ** The withdrawal guard *)

(** X7: a withdrawal script invokes the withdrawal exactly when the
    initial balance query resolved a balance of at least the configured
    amount. *)
Theorem withdrawal_invoked_iff_funded
    (cfg : config) (s : script) (w : world) (amount : BigNumber) :
  withdraw_amount s = Some amount ->
  (withdrawal_invoked (snd (run w 0 (script_prog cfg s))) = true <->
   exists b,
     initial_balance (snd (run w 0 (script_prog cfg s))) = Some b /\
     amount <= b).
Proof.
  unfold withdrawal_invoked, script_prog. rewrite run_entry.
  destruct s; simpl; intros Ha; try discriminate Ha;
    injection Ha as <-; unfold_scripts; unfold await; simpl;
    repeat decide_next;
    (split;
     [ intros H;
       first [ discriminate H
             | eexists; split; [reflexivity | now apply lt_false_ge] ]
     | intros [b [Hb Hle]];
       first [ discriminate Hb
             | reflexivity
             | injection Hb as <-;
               match goal with
               | H : BN.lt _ _ = true |- _ => apply lt_true_lt in H; lia
               end ] ]).
Qed.

Lemma withdrawal_invoked_iff_funded_witness :
  withdrawal_invoked
    (snd (run (balance_world 1000000000001) 0
              (script_prog sample_config WithdrawViaLib))) = true <->
  exists b,
    initial_balance
      (snd (run (balance_world 1000000000001) 0
                (script_prog sample_config WithdrawViaLib))) = Some b /\
    1000000000000 <= b.
Proof.
  apply (@withdrawal_invoked_iff_funded
           sample_config WithdrawViaLib (balance_world 1000000000001)
           1000000000000).
  reflexivity.
Defined.

(** X8: whatever the balance, the only withdrawal a withdrawal script ever
    requests is the configured amount; the ArbSys variant sends it to the
    precompile at address 100 with the wallet's own address as the
    destination. *)
Theorem withdrawal_is_the_configured_one
    (cfg : config) (s : script) (w : world) (c : call) :
  In c (calls (snd (run w 0 (script_prog cfg s)))) ->
  is_withdraw_call c = true ->
  withdrawal_of cfg s = Some c.
Proof.
  unfold script_prog. rewrite run_entry.
  destruct s; unfold_scripts; unfold await; simpl; repeat decide_next;
    intros H Hw; split_in H; subst c; try discriminate Hw; reflexivity.
Qed.

Lemma withdrawal_is_the_configured_one_witness :
  withdrawal_of sample_config WithdrawViaArbSys =
  Some (ArbSysWithdrawEth "0x0000000000000000000000000000000000000064"
                          "0xa11ce" 1000000000000000).
Proof.
  apply (@withdrawal_is_the_configured_one
           sample_config WithdrawViaArbSys happy_world).
  - vm_compute. tauto.
  - reflexivity.
Defined.

(** ** The greeter *)

(** X9: the value that the greeter attaches to [setGreetingInL2] is five
    times the base submission price that the price query resolved plus
    100000 times the gas price that the L2 provider resolved; the gas
    limit it passes is 100000 and the bid is that gas price. *)
Theorem callvalue_from_the_queried_prices
    (cfg : config) (w : world) (P G : BigNumber)
    (k : Contract) (g : string) (sp : BigNumber) (mg : Z)
    (gpb v : BigNumber) :
  In (Some P) (map price_of (snd (run w 0 (greeter.main cfg)))) ->
  In (Some G) (map gas_price_of (snd (run w 0 (greeter.main cfg)))) ->
  In (SetGreetingInL2 k g sp mg gpb v)
     (calls (snd (run w 0 (greeter.main cfg)))) ->
  v = P * 5 + G * 100000 /\ mg = 100000 /\ gpb = G.
Proof.
  run_greeter; intros HP HG Hc; split_in Hc;
    injection Hc as <- <- <- <- <- <-;
    split_in HP; injection HP as <-;
    split_in HG; injection HG as <-;
    repeat split; reflexivity.
Qed.

Lemma callvalue_from_the_queried_prices_witness :
  2001500 = 300 * 5 + 20 * 100000 /\ 100000 = 100000 /\ 20 = 20.
Proof.
  apply (@callvalue_from_the_queried_prices
           sample_config happy_world 300 20
           {| contractAddress := "0xc0GreeterL1" |} greeter.newGreeting
           1500 100000 20 2001500).
  - vm_compute. tauto.
  - vm_compute. tauto.
  - vm_compute. tauto.
Defined.

Lemma toNumber_overflow (b : BigNumber) :
  2 ^ 53 <= Z.abs b -> toNumber b = Err "overflow".
Proof.
  intros H. unfold toNumber.
  destruct (Z.abs b <? 2 ^ 53)%Z eqn:E; [|reflexivity].
  apply Z.ltb_lt in E. lia.
Qed.

(** X10: when the time of the next price update that the price query
    resolved does not fit in 53 bits, the greeter stops there: the
    overflow fault is logged with [console.error], the script exits with
    status 1, and neither the gas price is queried nor [setGreetingInL2]
    sent. *)
Theorem next_update_beyond_53_bits_stops_the_greeter
    (cfg : config) (w : world) (ts : BigNumber) :
  In (Some ts)
     (map next_update_of (snd (run w 0 (script_prog cfg Greeter)))) ->
  2 ^ 53 <= Z.abs ts ->
  fst (run w 0 (script_prog cfg Greeter)) = Exited 1 /\
  In (EvConsole ConsoleError "overflow")
     (snd (run w 0 (script_prog cfg Greeter))) /\
  ~ In GetGasPrice (calls (snd (run w 0 (script_prog cfg Greeter)))) /\
  filter is_value_transfer (calls (snd (run w 0 (script_prog cfg Greeter))))
    = [].
Proof.
  unfold script_prog. rewrite run_entry.
  unfold_scripts; unfold await; simpl; repeat decide_next;
    intros H Hbig; split_in H; injection H as <-;
    match goal with
    | E : toNumber _ = _ |- _ =>
        rewrite (toNumber_overflow _ Hbig) in E;
        try discriminate E; injection E as <-
    end;
    (split; [reflexivity|]; split; [find_event|]; split; [|reflexivity]);
    intros Hg; split_in Hg.
Qed.

Lemma next_update_beyond_53_bits_stops_the_greeter_witness :
  fst (run far_update_world 0 (script_prog sample_config Greeter)) = Exited 1.
Proof.
  apply (@next_update_beyond_53_bits_stops_the_greeter
           sample_config far_update_world (2 ^ 53)).
  - vm_compute. tauto.
  - vm_compute. discriminate.
Defined.

(** X11: the greeter wires the two contracts it deployed to each other:
    [updateL2Target] is sent to the contract deployed as GreeterL1 with
    the address of the one deployed as GreeterL2, [updateL1Target] the
    other way round, [setGreetingInL2] goes to the deployed GreeterL1 and
    [greet] is read from the deployed GreeterL2. *)
Theorem greeter_calls_are_wired
    (cfg : config) (w : world) (c : call) :
  In c (calls (snd (run w 0 (greeter.main cfg)))) ->
  wired (snd (run w 0 (greeter.main cfg))) c.
Proof.
  run_greeter; intros H; split_in H; subst c; simpl;
    try exact I;
    try solve [find_event];
    (split; [solve [find_event]|]);
    match goal with
    | |- context [Some ?k = Some _] =>
        exists k; split; [solve [find_event] | reflexivity]
    end.
Qed.

Lemma greeter_calls_are_wired_witness :
  wired (snd (run happy_world 0 (greeter.main sample_config)))
        (UpdateL2Target {| contractAddress := "0xc0GreeterL1" |}
                        "0xc0GreeterL2").
Proof.
  apply (@greeter_calls_are_wired sample_config happy_world).
  vm_compute. tauto.
Defined.

(** X12: the data size that the greeter passes to the price query is 68
    bytes (the selector, the offset word and the length word) plus the
    bytes of the greeting rounded up to whole 32-byte words. *)
Theorem calldata_size_in_words
    (cfg : config) (g : string) (w : world) (n : Z) :
  In (GetTxnSubmissionPrice n)
     (calls (snd (run w 0 (greeter.main_for cfg g)))) ->
  n = 68 + 32 * ((Z.of_nat (String.length g) + 31) / 32).
Proof.
  remember (68 + 32 * ((Z.of_nat (String.length g) + 31) / 32)) as size
    eqn:Hsize.
  unfold greeter.main_for.
  remember (defaultAbiCoder_encode_string g) as newGreetingBytes eqn:Hbytes.
  unfold await; simpl; repeat decide_next; intros Hc; split_in Hc;
    injection Hc as <-; subst newGreetingBytes size;
    unfold plus4, defaultAbiCoder_encode_string;
    rewrite hexDataLength_hexlify, length_abi_encode_string; lia.
Qed.

Lemma calldata_size_in_words_witness :
  100 = 68 + 32 * ((Z.of_nat (String.length greeter.newGreeting) + 31) / 32).
Proof.
  apply (@calldata_size_in_words sample_config greeter.newGreeting
           happy_world 100).
  vm_compute. tauto.
Defined.

(** ** The balance report *)

(** X13: in the three scripts that close with a balance report, a run that
    completes reads the first balance before it sends anything, sends its
    transaction, reads the second balance as its very last call, and the
    report that ends the output shows exactly these two balances. *)
Theorem balance_report_shows_before_and_after
    (cfg : config) (s : script) (w : world) (t : trace) :
  run w 0 (main_of cfg s) = (Resolved tt, t) ->
  balance_report s 0 0 <> None ->
  exists b0 b1 ev text pre post,
    t = ((pre ++ post) ++ [ev; EvConsole ConsoleLog text])%list /\
    balance_of ev = Some b1 /\
    balance_report s b0 b1 = Some text /\
    initial_balance pre = Some b0 /\
    filter is_value_transfer (calls pre) = [] /\
    List.length (filter is_value_transfer (calls post)) = 1%nat.
Proof.
  destruct s; unfold_scripts; unfold await; simpl; repeat decide_next;
    intros H Hr; try discriminate H; try (now contradiction Hr);
    injection H as H; do 4 eexists.
  - exists (firstn 3 t), (firstn 10 (skipn 3 t)). subst t. simpl.
    repeat split; reflexivity.
  - exists (firstn 3 t), (firstn 10 (skipn 3 t)). subst t. simpl.
    repeat split; reflexivity.
  - exists (firstn 2 t), (firstn 7 (skipn 2 t)). subst t. simpl.
    repeat split; reflexivity.
Qed.

Lemma balance_report_shows_before_and_after_witness :
  exists b0 b1 ev text pre post,
    snd (run happy_world 0 (main_of sample_config WithdrawViaArbSys)) =
      ((pre ++ post) ++ [ev; EvConsole ConsoleLog text])%list /\
    balance_of ev = Some b1 /\
    balance_report WithdrawViaArbSys b0 b1 = Some text /\
    initial_balance pre = Some b0 /\
    filter is_value_transfer (calls pre) = [] /\
    List.length (filter is_value_transfer (calls post)) = 1%nat.
Proof.
  apply (@balance_report_shows_before_and_after
           sample_config WithdrawViaArbSys happy_world).
  - reflexivity.
  - discriminate.
Defined.

(** ** The price feed consumer *)

Import DataFeedConsumer.

(** C10: when the aggregator returns the data of a round,
    [getHistoricalPrice] reverts with "Round not completed!" exactly when
    the returned timestamp is zero, and otherwise returns the five fields
    as the aggregator gave them. *)
Theorem getHistoricalPrice_reverts_iff_timestamp_zero
    (priceFeed : DataFeedConsumer.AggregatorV3Interface) (_roundId : N)
    (data : DataFeedConsumer.RoundData) :
  getRoundData priceFeed _roundId = Returns data ->
  (getHistoricalPrice priceFeed _roundId = Reverts "Round not completed!"
   <-> timestamp data = 0%N) /\
  (timestamp data <> 0%N ->
   getHistoricalPrice priceFeed _roundId = Returns data).
Proof.
  intros Hdata. unfold getHistoricalPrice. rewrite Hdata.
  destruct (0 <? timestamp data)%N eqn:Hpos.
  - apply N.ltb_lt in Hpos. split.
    + split; [discriminate | lia].
    + reflexivity.
  - apply N.ltb_ge in Hpos. split.
    + split; [lia | reflexivity].
    + lia.
Qed.

Lemma getHistoricalPrice_reverts_iff_timestamp_zero_witness :
  getHistoricalPrice sample_feed 2 = Reverts "Round not completed!".
Proof.
  apply (proj1 (getHistoricalPrice_reverts_iff_timestamp_zero
                  sample_feed 2 eq_refl)).
  reflexivity.
Defined.

(** X14: whatever [getHistoricalPrice] returns is what the aggregator
    returned for that round and is a completed round (its timestamp is
    positive); when it reverts, either the aggregator reverted and the
    reason is the aggregator's, or the round has timestamp zero and the
    reason is "Round not completed!". *)
Theorem getHistoricalPrice_returns_completed_rounds_only
    (priceFeed : DataFeedConsumer.AggregatorV3Interface) (_roundId : N) :
  match getHistoricalPrice priceFeed _roundId with
  | Returns data =>
      getRoundData priceFeed _roundId = Returns data /\
      (0 < timestamp data)%N
  | Reverts reason =>
      getRoundData priceFeed _roundId = Reverts reason \/
      (reason = "Round not completed!" /\
       exists data,
         getRoundData priceFeed _roundId = Returns data /\
         timestamp data = 0%N)
  end.
Proof.
  unfold getHistoricalPrice.
  destruct (getRoundData priceFeed _roundId) as [data|reason].
  - destruct (0 <? timestamp data)%N eqn:Hpos.
    + apply N.ltb_lt in Hpos. split; [reflexivity | exact Hpos].
    + apply N.ltb_ge in Hpos. right. split; [reflexivity|].
      exists data. split; [reflexivity | lia].
  - left. reflexivity.
Qed.

(** X15: [getLatestPrice] makes no completeness check: when the latest
    round is also the round stored under an id, the historical query of
    that id agrees with [getLatestPrice] exactly when the round's
    timestamp is not zero. *)
Theorem latest_and_historical_agree_iff_completed
    (priceFeed : DataFeedConsumer.AggregatorV3Interface) (_roundId : N)
    (data : DataFeedConsumer.RoundData) :
  latestRoundData priceFeed = Returns data ->
  getRoundData priceFeed _roundId = Returns data ->
  (getHistoricalPrice priceFeed _roundId = getLatestPrice priceFeed
   <-> timestamp data <> 0%N).
Proof.
  intros Hlatest Hround. unfold getHistoricalPrice, getLatestPrice.
  rewrite Hlatest, Hround.
  destruct (0 <? timestamp data)%N eqn:Hpos.
  - apply N.ltb_lt in Hpos. split; [lia | reflexivity].
  - apply N.ltb_ge in Hpos. split; [discriminate | lia].
Qed.

Lemma latest_and_historical_agree_iff_completed_witness :
  getHistoricalPrice sample_feed 1 = getLatestPrice sample_feed.
Proof.
  apply (proj2 (@latest_and_historical_agree_iff_completed
                  sample_feed 1 _ eq_refl eq_refl)).
  discriminate.
Defined.

(** ** The withdrawal contract *)

(** X16: [withdrawEth] and [sendTxToL1] return the very id that ArbSys
    returned and emit exactly one [L2ToL1TxCreated] event, carrying that
    id, after the events already emitted; when ArbSys reverts they revert
    with its reason. *)
Theorem withdraw_returns_the_id_it_emits
    (arbsys : Withdraw.ArbSys) (st : Withdraw.state) (msg_value : N)
    (_destAddress : address) (_calldataForL1 : list byte) :
  match Withdraw.withdrawEth arbsys st msg_value _destAddress with
  | Returns (id, st') =>
      Withdraw.arbsys_withdrawEth arbsys 0 _destAddress = Returns id /\
      Withdraw.logs st' =
        (Withdraw.logs st ++ [Withdraw.L2ToL1TxCreated id])%list
  | Reverts reason =>
      Withdraw.arbsys_withdrawEth arbsys 0 _destAddress = Reverts reason
  end /\
  match Withdraw.sendTxToL1 arbsys st msg_value _destAddress _calldataForL1
  with
  | Returns (id, st') =>
      Withdraw.arbsys_sendTxToL1 arbsys 0 _destAddress _calldataForL1
        = Returns id /\
      Withdraw.logs st' =
        (Withdraw.logs st ++ [Withdraw.L2ToL1TxCreated id])%list
  | Reverts reason =>
      Withdraw.arbsys_sendTxToL1 arbsys 0 _destAddress _calldataForL1
        = Reverts reason
  end.
Proof.
  unfold Withdraw.withdrawEth, Withdraw.sendTxToL1. split.
  - destruct (Withdraw.arbsys_withdrawEth arbsys 0 _destAddress);
      [split|]; reflexivity.
  - destruct (Withdraw.arbsys_sendTxToL1 arbsys 0 _destAddress
                                          _calldataForL1);
      [split|]; reflexivity.
Qed.

(** X17: the ether sent along with [withdrawEth] is not passed on to
    ArbSys: after a successful call it is on the contract's balance, and
    with any other amount sent the call yields the same id and the same
    events. *)
Theorem withdrawEth_keeps_the_ether_sent
    (arbsys : Withdraw.ArbSys) (st st' : Withdraw.state) (msg_value id : N)
    (_destAddress : address) :
  Withdraw.withdrawEth arbsys st msg_value _destAddress = Returns (id, st') ->
  Withdraw.balance st' = (Withdraw.balance st + msg_value)%N /\
  forall other : N,
    exists st'',
      Withdraw.withdrawEth arbsys st other _destAddress = Returns (id, st'')
      /\ Withdraw.logs st'' = Withdraw.logs st'.
Proof.
  unfold Withdraw.withdrawEth.
  destruct (Withdraw.arbsys_withdrawEth arbsys 0 _destAddress) as [i|r];
    intros H; [|discriminate H].
  injection H as <- <-. split; [reflexivity|].
  intros other. eexists. split; reflexivity.
Qed.

Lemma withdrawEth_keeps_the_ether_sent_witness :
  Withdraw.balance
    {| Withdraw.balance := 15;
       Withdraw.logs := [Withdraw.L2ToL1TxCreated 7] |} = (10 + 5)%N.
Proof.
  exact (proj1 (@withdrawEth_keeps_the_ether_sent sample_arbsys
                  {| Withdraw.balance := 10; Withdraw.logs := [] |}
                  _ 5%N 7%N "0xa11ce" eq_refl)).
Defined.
